(** * DocsPort: the sandboxed snippet executor of [backend/execution.py]

    A shallow embedding of [CodeExecutionResult], of the static guard
    [SecureCodeExecutor._validate_code] and of the runner
    [SecureCodeExecutor.execute_code] / [_execute_python_code] /
    [_save_execution_history].

    Snippets are modelled as ASCII strings ([String.string]); Python's
    [str.lower] is ASCII lower-casing on them and [in] on strings is
    substring containment.  The operating system (file system, child
    process, clock, database) is an environment of answers read by the
    effectful primitives; the runner is a state-and-exception monad that
    records the observable effects in a trace. *)

From Stdlib Require Import String Ascii List Bool ZArith Lia DecimalString Permutation Sorted.
Import ListNotations.
Open Scope string_scope.
Open Scope Z_scope.

(** ** Python string primitives *)

(** [c.lower()] for one ASCII character. *)
Definition ascii_lower (c : ascii) : ascii :=
  let n := nat_of_ascii c in
  if andb (Nat.leb 65 n) (Nat.leb n 90) then ascii_of_nat (n + 32) else c.

(** [s.lower()]; snippets are taken to be ASCII text, on which it maps
    exactly [A-Z] to [a-z]. *)
Fixpoint str_lower (s : string) : string :=
  match s with
  | EmptyString => EmptyString
  | String c rest => String (ascii_lower c) (str_lower rest)
  end.

(** [s.startswith(p)] *)
Fixpoint starts_with (p s : string) : bool :=
  match p, s with
  | EmptyString, _ => true
  | String c p', String d s' => Ascii.eqb c d && starts_with p' s'
  | String _ _, EmptyString => false
  end.

(** [p in s] for strings: substring containment. *)
Fixpoint str_in (p s : string) : bool :=
  match s with
  | EmptyString => starts_with p s
  | String _ s' => starts_with p s || str_in p s'
  end.

(** [str(n)] for a Python int. *)
Definition str_int (z : Z) : string := NilZero.string_of_int (Z.to_int z).

(** ** The static guard: [SecureCodeExecutor._validate_code] *)

Definition dangerous_operations : list string := [
  "import os";
  "import sys";
  "import subprocess";
  "import shutil";
  "import socket";
  "import urllib";
  "import requests";
  "from os import";
  "from sys import";
  "from subprocess import";
  "from shutil import";
  "from socket import";
  "from urllib import";
  "from requests import";
  "exec(";
  "eval(";
  "compile(";
  "__import__(";
  "open(";
  "file(";
  "input(";
  "raw_input(";
  "exit(";
  "quit(";
  "globals(";
  "locals(";
  "vars(";
  "dir(";
  "getattr(";
  "setattr(";
  "delattr(";
  "hasattr(";
  "reload(";
  "importlib";
  "pickle";
  "cPickle";
  "marshal";
  "tempfile";
  "pathlib";
  "glob";
  "fnmatch"
].

(** The loop [for operation in dangerous_operations: if operation in
    code_lower: return False] followed by [return True]. *)
Fixpoint validate_loop (ops : list string) (code_lower : string) : bool :=
  match ops with
  | [] => true
  | operation :: rest =>
      if str_in operation code_lower then false
      else validate_loop rest code_lower
  end.

Definition _validate_code (code : string) : bool :=
  let code_lower := str_lower code in
  validate_loop dangerous_operations code_lower.

Example validate_import_os : _validate_code "import os" = false.
Proof. reflexivity. Qed.
Example validate_print : _validate_code "print(2 + 3)" = true.
Proof. reflexivity. Qed.
Example str_int_ex : str_int 30 = "30" /\ str_int (-1) = "-1".
Proof. split; reflexivity. Qed.

(** ** [CodeExecutionResult] and [to_dict] *)

(** [execution_time] (a float of seconds in Python) is kept as the exact
    difference of two clock readings; [memory_usage] and [timestamp] are
    never read by the code under study and are left out. *)
Record CodeExecutionResult := mkResult {
  execution_id : nat;
  output : string;
  error_output : string;
  return_code : Z;
  execution_time : Z;
  timeout_occurred : bool
}.

(** [CodeExecutionResult()]: the constructor's defaults. *)
Definition new_result_with_id (id : nat) : CodeExecutionResult :=
  mkResult id "" "" 0 0 false.

Definition set_error (r : CodeExecutionResult) (msg : string) (rc : Z) :=
  mkResult (execution_id r) (output r) msg rc (execution_time r)
    (timeout_occurred r).

(** The dictionary returned by [to_dict]. *)
Record ResultDict := mkDict {
  d_execution_id : nat;
  d_output : string;
  d_error_output : string;
  d_return_code : Z;
  d_execution_time : Z;
  d_timeout_occurred : bool;
  d_success : bool
}.

Definition to_dict (r : CodeExecutionResult) : ResultDict :=
  mkDict (execution_id r) (output r) (error_output r) (return_code r)
    (execution_time r) (timeout_occurred r)
    (Z.eqb (return_code r) 0 && negb (timeout_occurred r)).

(** ** Exceptions, effects and the environment *)

(** Python exceptions that reach the code: [subprocess.TimeoutExpired]
    and any other [Exception] (an [OSError] from [open], [write],
    [Popen] or [unlink], a decoding error in [communicate], ...),
    carried with its [str(e)]. *)
Inductive exn :=
| TimeoutExpired
| PyException (msg : string).

Definition exn_str (e : exn) : string :=
  match e with
  | TimeoutExpired => "TimeoutExpired"
  | PyException m => m
  end.

(** How the child process ended, and [Popen.returncode] for it (POSIX):
    the exit status, or [-N] when the child was killed by signal [N]. *)
Inductive wait_status :=
| Exited (status : Z)
| Signaled (signum : Z).

Definition popen_returncode (w : wait_status) : Z :=
  match w with
  | Exited n => n
  | Signaled s => - s
  end.

(** [process.communicate(timeout=timeout)]: returns the captured streams,
    raises [TimeoutExpired] when the bound elapses, or raises another
    exception. *)
Inductive comm_outcome :=
| CommDone (stdout stderr : string) (w : wait_status)
| CommTimeout
| CommRaises (msg : string).

(** The answers of the operating system to one run.  [None] means that
    the call succeeds, [Some m] that it raises an exception with message
    [m]. *)
Record Env := mkEnv {
  env_open : option string;        (* open(temp_file, 'w') *)
  env_write : option string;       (* f.write(code), after the file exists *)
  env_popen : option string;       (* subprocess.Popen(...) *)
  env_communicate : comm_outcome;  (* process.communicate(timeout=...) *)
  env_clock : nat -> Z;            (* the n-th reading of time.time() *)
  env_child_unlinks : bool;        (* the child deletes its own scratch file *)
  env_exists : option string;      (* temp_file.exists(): stat fails other
                                      than with ENOENT, e.g. EACCES after the
                                      child changed the directory's mode *)
  env_unlink : option string;      (* temp_file.unlink() *)
  env_db : option string           (* the INSERT into execution_history *)
}.

(** SIGKILL, sent by [Popen.kill] on POSIX. *)
Definition SIGKILL : Z := 9.

(** Observable effects. *)
Inductive event :=
| EvCreateFile (id : nat)                 (* open(temp_file, 'w') created it *)
| EvWriteFile (id : nat) (code : string)
| EvSpawn (id : nat)                      (* Popen([sys.executable, temp_file]) *)
| EvSendSignal (signum : Z)               (* process.kill() *)
| EvUnlink (id : nat)                     (* temp_file.unlink() attempted *)
| EvSaveHistory (code etype out err : string) (time : Z)
| EvPrint (msg : string).

Record State := mkState {
  st_trace : list event;   (* effects so far, oldest first *)
  st_files : list nat;     (* existing scratch files, by execution id *)
  st_next_id : nat;        (* source of fresh uuid4 values *)
  st_clock : nat           (* number of time.time() readings so far *)
}.

Definition init_state : State := mkState [] [] 0 0.

(** ** A state and exception monad *)

Definition M (A : Type) : Type := State -> (exn + A) * State.

Definition ret {A} (a : A) : M A := fun s => (inr a, s).
Definition bind {A B} (m : M A) (k : A -> M B) : M B :=
  fun s => match m s with
           | (inl e, s') => (inl e, s')
           | (inr a, s') => k a s'
           end.
Definition raise {A} (e : exn) : M A := fun s => (inl e, s).

Notation "x <- m ;; k" := (bind m (fun x => k))
  (at level 61, m at next level, right associativity).
Notation "m ;;; k" := (bind m (fun _ => k))
  (at level 61, right associativity).

(** [try: m except <exception>: h] where [catches] selects the handled
    exceptions. *)
Definition try_except {A} (catches : exn -> bool) (m : M A) (h : exn -> M A)
  : M A :=
  fun s => match m s with
           | (inl e, s') => if catches e then h e s' else (inl e, s')
           | ok => ok
           end.

(** [try: m finally: f]: an exception of [f] replaces the outcome of [m]. *)
Definition try_finally {A} (m : M A) (f : M unit) : M A :=
  fun s => match m s with
           | (r, s') => match f s' with
                        | (inl e, s'') => (inl e, s'')
                        | (inr _, s'') => (r, s'')
                        end
           end.

Definition is_exception (e : exn) : bool := true.
Definition is_timeout_expired (e : exn) : bool :=
  match e with TimeoutExpired => true | _ => false end.

Definition emit (ev : event) : M unit :=
  fun s => (inr tt, mkState (st_trace s ++ [ev]) (st_files s)
                            (st_next_id s) (st_clock s)).

Section Runner.

Variable env : Env.

(** ** Primitives *)

(** [CodeExecutionResult()] with a fresh [uuid4()]. *)
Definition new_result : M CodeExecutionResult :=
  fun s => (inr (new_result_with_id (st_next_id s)),
            mkState (st_trace s) (st_files s) (S (st_next_id s)) (st_clock s)).

(** [time.time()] *)
Definition time_time : M Z :=
  fun s => (inr (env_clock env (st_clock s)),
            mkState (st_trace s) (st_files s) (st_next_id s) (S (st_clock s))).

Definition raise_opt (o : option string) : M unit :=
  match o with
  | Some m => raise (PyException m)
  | None => ret tt
  end.

Definition add_file (id : nat) : M unit :=
  fun s => (inr tt, mkState (st_trace s) (id :: st_files s)
                            (st_next_id s) (st_clock s)).

Definition remove_file (id : nat) : M unit :=
  fun s => (inr tt, mkState (st_trace s)
                            (filter (fun f => negb (Nat.eqb f id)) (st_files s))
                            (st_next_id s) (st_clock s)).

(** [with open(temp_file, 'w', encoding='utf-8') as f: f.write(code)] *)
Definition write_temp_file (id : nat) (code : string) : M unit :=
  raise_opt (env_open env);;;
  add_file id;;;
  emit (EvCreateFile id);;;
  raise_opt (env_write env);;;
  emit (EvWriteFile id code).

(** [subprocess.Popen([sys.executable, str(temp_file)], ...)]; the child
    runs in the scratch directory, with the permissions of the server, and
    may remove the file it runs from before the parent looks at it again. *)
Definition popen (id : nat) : M unit :=
  raise_opt (env_popen env);;;
  emit (EvSpawn id);;;
  if env_child_unlinks env then remove_file id else ret tt.

(** [process.communicate(timeout=timeout)], then [process.returncode]. *)
Definition communicate (timeout : Z) : M (string * string * Z) :=
  match env_communicate env with
  | CommDone out err w => ret (out, err, popen_returncode w)
  | CommTimeout => raise TimeoutExpired
  | CommRaises m => raise (PyException m)
  end.

(** [process.kill()] *)
Definition kill : M unit := emit (EvSendSignal SIGKILL).

(** [temp_file.exists()]: false when the file is absent (never created, or
    removed by the child), and raising when [stat] fails otherwise. *)
Definition file_exists (id : nat) : M bool :=
  raise_opt (env_exists env);;;
  fun s => (inr (existsb (Nat.eqb id) (st_files s)), s).

(** [temp_file.unlink()] *)
Definition unlink (id : nat) : M unit :=
  emit (EvUnlink id);;;
  raise_opt (env_unlink env);;;
  remove_file id.

(** ** [SecureCodeExecutor._execute_python_code] *)

Definition timeout_message (timeout : Z) : string :=
  "Execution timed out after " ++ str_int timeout ++ " seconds".

Definition _execute_python_code (code : string) (timeout : Z)
  : M CodeExecutionResult :=
  result <- new_result;;
  let temp_file := execution_id result in
  try_finally
    (write_temp_file temp_file code;;;
     start_time <- time_time;;
     popen temp_file;;;
     result <- try_except is_timeout_expired
       (out_err_rc <- communicate timeout;;
        let '(stdout, stderr, rc) := out_err_rc in
        ret (mkResult (execution_id result) stdout stderr rc
                      (execution_time result) (timeout_occurred result)))
       (fun _ =>
        kill;;;
        ret (mkResult (execution_id result) (output result)
                      (timeout_message timeout) (-1)
                      (execution_time result) true));;
     end_time <- time_time;;
     ret (mkResult (execution_id result) (output result)
                   (error_output result) (return_code result)
                   (end_time - start_time) (timeout_occurred result)))
    (exists_ <- file_exists temp_file;;
     if exists_ then unlink temp_file else ret tt).

(** ** [SecureCodeExecutor._save_execution_history] *)

Definition _save_execution_history (code execution_type : string)
  (result : CodeExecutionResult) : M unit :=
  try_except is_exception
    (emit (EvSaveHistory code execution_type (output result)
                         (error_output result) (execution_time result));;;
     raise_opt (env_db env))
    (fun e => emit (EvPrint ("Error saving execution history: " ++ exn_str e))).

(** ** [SecureCodeExecutor.execute_code] *)

Definition FORBIDDEN_MESSAGE : string := "Code contains forbidden operations".

Definition execute_code (code execution_type : string) (timeout : Z)
  : M ResultDict :=
  result <- new_result;;
  try_except is_exception
    (if negb (_validate_code code) then
       ret (to_dict (set_error result FORBIDDEN_MESSAGE 1))
     else
       result <- (if String.eqb execution_type "python" then
                    _execute_python_code code timeout
                  else
                    ret (set_error result
                           ("Unsupported execution type: " ++ execution_type)
                           1));;
       _save_execution_history code execution_type result;;;
       ret (to_dict result))
    (fun e => ret (to_dict (set_error result (exn_str e) 1))).

End Runner.

(** One request served from a fresh executor. *)
Definition run_execute_code (env : Env) (code execution_type : string)
  (timeout : Z) : (exn + ResultDict) * State :=
  execute_code env code execution_type timeout init_state.

(** ** Sample environments *)

(** Everything succeeds; the child exits with [w] printing [out]. *)
Definition env_ok (out : string) (w : wait_status) : Env :=
  mkEnv None None None (CommDone out "" w) (fun n => Z.of_nat n * 5) false None
        None None.

Example run_print :
  fst (run_execute_code (env_ok "5" (Exited 0)) "print(2 + 3)" "python" 5)
  = inr (mkDict 1 "5" "" 0 5 false true).
Proof. reflexivity. Qed.

(** ** Python dicts

    A [dict] with string keys as an association list in insertion order:
    [d[k] = v] replaces the value in place when [k] is present and appends
    otherwise; [del d[k]] removes the entry. *)

Fixpoint dict_lookup {V} (k : string) (d : list (string * V)) : option V :=
  match d with
  | [] => None
  | (k', v) :: rest => if String.eqb k k' then Some v else dict_lookup k rest
  end.

(** [k in d] *)
Definition dict_mem {V} (k : string) (d : list (string * V)) : bool :=
  match dict_lookup k d with Some _ => true | None => false end.

(** [d[k] = v] *)
Fixpoint dict_set {V} (k : string) (v : V) (d : list (string * V))
  : list (string * V) :=
  match d with
  | [] => [(k, v)]
  | (k', v') :: rest =>
      if String.eqb k k' then (k', v) :: rest else (k', v') :: dict_set k v rest
  end.

(** [del d[k]] (called only when [k in d]) *)
Fixpoint dict_del {V} (k : string) (d : list (string * V)) : list (string * V) :=
  match d with
  | [] => []
  | (k', v') :: rest => if String.eqb k k' then rest else (k', v') :: dict_del k rest
  end.

(** ** [InteractiveCodeExecutor] *)

(** A value bound in a session namespace: what [str(value)] gives ([None]
    when it raises) and [type(value).__name__]. *)
Record PyValue := mkValue {
  v_str : option string;
  v_type_name : string
}.

Definition Namespace := list (string * PyValue).

(** One entry of [self.sessions]; datetimes are kept as numbers. *)
Record Session := mkSession {
  s_globals : Namespace;
  s_locals : Namespace;
  s_created_at : Z;
  s_last_used : Z
}.

Definition Sessions := list (string * Session).

(** An exception raised inside the [try] of [execute_in_session]: an
    [Exception] with what [str(e)] gives ([None] when its [__str__] itself
    raises), or a [BaseException] that is not an [Exception] ([SystemExit]
    from [exit()], [KeyboardInterrupt], ...). *)
Inductive py_raise :=
| RaiseException (str_e : option string)
| RaiseBase (type_name : string).

(** What [exec(code, session["globals"], session["locals"])] does.  The
    snippet runs in the server process: through shared mutable values (or
    [gc]) it may change any session, so it hands back the whole session
    store as it leaves it.  When it returns, [stdout]/[stderr] are what
    [getvalue()] gives on each capture, [None] when the snippet closed it
    (then [getvalue()] raises [ValueError]). *)
Inductive exec_outcome :=
| ExecOk (stdout stderr : option string) (store : list (string * Session))
| ExecRaises (e : py_raise) (store : list (string * Session)).

(** The dictionaries the methods return. *)
Inductive SessionReply :=
| RError (msg : string)                            (* {"error": msg} *)
| RMessage (msg : string)                          (* {"message": msg} *)
| RResult (d : ResultDict)                         (* result.to_dict() *)
| RVariables (vars : list (string * string)).      (* {"variables": vars} *)

(** A method call returns a dictionary or lets an exception propagate. *)
Inductive SessionOutcome :=
| Returns (r : SessionReply)
| Propagates.

Definition SESSION_NOT_FOUND : string := "Session not found".

(** [str(ValueError)] of [getvalue()] on a closed [StringIO]. *)
Definition CLOSED_FILE_MESSAGE : string := "I/O operation on closed file.".

(** [create_session]: [uuid] is the value [str(uuid.uuid4())] returned,
    [created] and [last_used] the values of the two [datetime.now()]
    calls. *)
Definition create_session (sessions : Sessions) (uuid : string)
  (created last_used : Z) : string * Sessions :=
  (uuid, dict_set uuid (mkSession [] [] created last_used) sessions).

(** [session["last_used"] = now] *)
Definition touch (session : Session) (now : Z) : Session :=
  mkSession (s_globals session) (s_locals session) (s_created_at session) now.

Section Interactive.

(** The interpreter's [exec] on a snippet, the session it runs in and the
    whole session store. *)
Variable py_exec : string -> Session -> Sessions -> exec_outcome.

(** [except Exception as e: result.error_output = str(e);
    result.return_code = 1]; anything else propagates. *)
Definition session_handler (e : py_raise) (result : CodeExecutionResult)
  : SessionOutcome :=
  match e with
  | RaiseException (Some msg) => Returns (RResult (to_dict (set_error result msg 1)))
  | RaiseException None => Propagates
  | RaiseBase _ => Propagates
  end.

(** [execute_in_session]: [now] is [datetime.now()], [id] the fresh
    [execution_id], [t0] and [t1] the two [time.time()] readings. *)
Definition execute_in_session (sessions : Sessions) (session_id code : string)
  (now : Z) (id : nat) (t0 t1 : Z) : SessionOutcome * Sessions :=
  match dict_lookup session_id sessions with
  | None => (Returns (RError SESSION_NOT_FOUND), sessions)
  | Some session =>
      let session := touch session now in
      let sessions := dict_set session_id session sessions in
      let result := new_result_with_id id in
      match py_exec code session sessions with
      | ExecOk (Some out) (Some err) store =>
          (Returns (RResult (to_dict (mkResult id out err (return_code result)
                                       (t1 - t0) (timeout_occurred result)))),
           store)
      | ExecOk None _ store =>
          (session_handler (RaiseException (Some CLOSED_FILE_MESSAGE)) result, store)
      | ExecOk (Some out) None store =>
          (session_handler (RaiseException (Some CLOSED_FILE_MESSAGE))
             (mkResult id out (error_output result) (return_code result)
                (execution_time result) (timeout_occurred result)), store)
      | ExecRaises e store => (session_handler e result, store)
      end
  end.

End Interactive.

(** [str(value)], falling back to [f"<{type(value).__name__}>"]. *)
Definition value_str (v : PyValue) : string :=
  match v_str v with
  | Some s => s
  | None => "<" ++ v_type_name v ++ ">"
  end.

(** The loop over [session["locals"].items()]. *)
Fixpoint collect_variables (items : Namespace) (variables : list (string * string))
  : list (string * string) :=
  match items with
  | [] => variables
  | (name, value) :: rest =>
      if negb (starts_with "_" name)
      then collect_variables rest (dict_set name (value_str value) variables)
      else collect_variables rest variables
  end.

Definition get_session_variables (sessions : Sessions) (session_id : string)
  : SessionReply :=
  match dict_lookup session_id sessions with
  | None => RError SESSION_NOT_FOUND
  | Some session => RVariables (collect_variables (s_locals session) [])
  end.

Definition clear_session (sessions : Sessions) (session_id : string)
  : SessionReply * Sessions :=
  if dict_mem session_id sessions
  then (RMessage "Session deleted", dict_del session_id sessions)
  else (RError SESSION_NOT_FOUND, sessions).

(** ** SQLite tables and the queries of the module

    A table is its list of rows in rowid order.  [ORDER BY] is a stable
    insertion sort on the key (rows with equal keys keep rowid order, one
    of the orders SQLite may return); TEXT values compare bytewise, which
    on ASCII strings is [String.compare]; [LIMIT n] with a negative [n]
    returns every row.  [db] is [None] when the connection and statements
    succeed, [Some m] when one of them raises with message [m]. *)

Fixpoint insert_by {A} (le : A -> A -> bool) (x : A) (l : list A) : list A :=
  match l with
  | [] => [x]
  | y :: rest => if le x y then x :: l else y :: insert_by le x rest
  end.

Fixpoint sort_by {A} (le : A -> A -> bool) (l : list A) : list A :=
  match l with
  | [] => []
  | x :: rest => insert_by le x (sort_by le rest)
  end.

(** [LIMIT n] *)
Definition sql_limit {A} (n : Z) (l : list A) : list A :=
  if Z.ltb n 0 then l else firstn (Z.to_nat n) l.

Definition str_le (a b : string) : bool :=
  match String.compare a b with Gt => false | _ => true end.

(** A row of [execution_history]. *)
Record HistoryRow := mkHistoryRow {
  h_id : Z;
  h_code_content : string;
  h_execution_type : string;
  h_output : string;
  h_error_output : string;
  h_execution_time : Z;
  h_created_at : string
}.

(** [SecureCodeExecutor.get_execution_history]: [ORDER BY created_at DESC
    LIMIT ?]; any exception gives []. *)
Definition get_execution_history (db : option string) (rows : list HistoryRow)
  (limit : Z) : list HistoryRow :=
  match db with
  | Some _ => []
  | None =>
      sql_limit limit
        (sort_by (fun x y => str_le (h_created_at y) (h_created_at x)) rows)
  end.

(** A row of [code_snippets]. *)
Record SnippetRow := mkSnippetRow {
  sn_id : Z;
  sn_name : string;
  sn_description : string;
  sn_code : string;
  sn_language : string;
  sn_category : string;
  sn_created_at : string
}.

(** The table with its AUTOINCREMENT counter (the largest rowid ever
    used). *)
Record SnippetTable := mkSnippetTable {
  snippet_rows : list SnippetRow;
  snippet_seq : Z
}.

Inductive SaveReply :=
| SavedSnippet (id : Z)      (* {"id": id, "message": "Snippet saved successfully"} *)
| SaveError (msg : string).  (* {"error": str(e)} *)

(** [CodeSnippetManager.save_snippet]; [now] is [CURRENT_TIMESTAMP]. *)
Definition save_snippet (db : option string) (table : SnippetTable)
  (name code description language category now : string)
  : SaveReply * SnippetTable :=
  match db with
  | Some m => (SaveError m, table)
  | None =>
      let snippet_id := snippet_seq table + 1 in
      (SavedSnippet snippet_id,
       mkSnippetTable
         (snippet_rows table ++
          [mkSnippetRow snippet_id name description code language category now])
         snippet_id)
  end.

(** Python truthiness of [category: Optional[str]]. *)
Definition truthy_category (category : option string) : option string :=
  match category with
  | Some c => if String.eqb c "" then None else Some c
  | None => None
  end.

(** [CodeSnippetManager.get_snippets] *)
Definition get_snippets (db : option string) (table : SnippetTable)
  (category : option string) : list SnippetRow :=
  match db with
  | Some _ => []
  | None =>
      match truthy_category category with
      | Some c =>
          sort_by (fun x y => str_le (sn_name x) (sn_name y))
            (filter (fun r => String.eqb (sn_category r) c) (snippet_rows table))
      | None =>
          sort_by (fun x y =>
                     match String.compare (sn_category x) (sn_category y) with
                     | Lt => true
                     | Gt => false
                     | Eq => str_le (sn_name x) (sn_name y)
                     end)
            (snippet_rows table)
      end
  end.

(** Whether a trace contains a write to the execution history. *)
Definition has_save (tr : list event) : bool :=
  existsb (fun ev => match ev with EvSaveHistory _ _ _ _ _ => true | _ => false end) tr.

(** The state [_execute_python_code] starts from inside [run_execute_code]:
    the outer [CodeExecutionResult()] has taken execution id 0. *)
Definition runner_start : State := mkState [] [] 1 0.

(** A double quote, to build snippets holding string literals. *)
Definition dq : string := String (ascii_of_nat 34) EmptyString.

(** ** Lemmas *)

Lemma validate_loop_false (ops : list string) (op code_lower : string) :
  In op ops -> str_in op code_lower = true -> validate_loop ops code_lower = false.
Proof.
  induction ops as [|o ops IH]; cbn; [tauto|].
  intros [<-|Hin] Hs.
  - rewrite Hs. reflexivity.
  - destruct (str_in o code_lower); [reflexivity|]. exact (IH Hin Hs).
Qed.

Lemma save_never_raises env code etype r s :
  exists s', _save_execution_history env code etype r s = (inr tt, s').
Proof.
  unfold _save_execution_history, try_except, bind, emit, raise_opt, ret, raise.
  destruct (env_db env); cbn; eauto.
Qed.

Lemma execute_code_returns_dict env code etype timeout s :
  exists r, fst (execute_code env code etype timeout s) = inr (to_dict r).
Proof.
  unfold execute_code, try_except, bind at 1, new_result.
  cbn [fst snd].
  destruct (_validate_code code); cbn.
  - destruct (String.eqb etype "python").
    + unfold bind.
      destruct (_execute_python_code env code timeout _) as [[e|r] s1]; cbn.
      * eauto.
      * destruct (save_never_raises env code etype r s1) as [s2 ->]. cbn. eauto.
    + unfold bind, ret.
      match goal with |- context [_save_execution_history ?a ?b ?c ?d ?e] =>
        destruct (save_never_raises a b c d e) as [s2 ->] end. cbn. eauto.
  - eauto.
Qed.

(** Unfold the runner down to the environment's answers. *)
Ltac unfold_runner :=
  unfold run_execute_code, execute_code, _execute_python_code, try_except,
    try_finally, bind, new_result, ret, raise, write_temp_file, raise_opt,
    time_time, popen, communicate, kill, file_exists, unlink, emit, add_file,
    remove_file, _save_execution_history.

(** Discharge [In ev tr] on a computed trace. *)
Ltac in_trace := vm_compute; repeat first [left; reflexivity | right].

(** Split on the environment's answers one at a time, in the order the
    runner reaches them. *)
Ltac env_steps :=
  repeat (cbn -[_validate_code];
          match goal with
          | |- context [match ?x with Some _ => _ | None => _ end] =>
              is_var x; destruct x
          | |- context [raise_opt ?x] => is_var x; destruct x
          | |- context [match ?x with CommDone _ _ _ => _ | _ => _ end] =>
              is_var x; destruct x
          | |- context [match ?x with true => _ | false => _ end] =>
              is_var x; destruct x
          end);
  cbn -[_validate_code].

(** Close [In ev tr -> ...] on a computed trace. *)
Ltac trace_cases :=
  let H := fresh "H" in
  intros H; repeat (destruct H as [H|H]; [try discriminate H|]);
  try contradiction.

(** More sample environments. *)

(** The child outlives the bound of [communicate]. *)
Definition env_timeout : Env :=
  mkEnv None None None CommTimeout (fun n => Z.of_nat n * 5) false None None None.

(** [Popen] fails: the interpreter binary is missing. *)
Definition env_spawn_fail : Env :=
  mkEnv None None (Some "[Errno 2] No such file or directory") (CommDone "" "" (Exited 0))
        (fun n => Z.of_nat n * 5) false None None None.

(** The child exits 0 printing [out]; deleting the scratch file fails. *)
Definition env_unlink_fail (out : string) : Env :=
  mkEnv None None None (CommDone out "" (Exited 0)) (fun n => Z.of_nat n * 5) false None
        (Some "[Errno 13] Permission denied") None.

Definition nl : string := String (ascii_of_nat 10) EmptyString.

(** ** Claims *)

(** C1 (code_bug): the guard only lower-cases, it does not collapse runs of
    spaces, so [import  os] (two spaces) matches no denylist entry: it is
    allowed, and with a child that exits 0 the run reports success. *)
Theorem guard_double_space_import_allowed :
  _validate_code "import  os" = true /\
  fst (run_execute_code (env_ok "" (Exited 0)) "import  os" "python" 5)
  = inr (mkDict 1 "" "" 0 5 false true).
Proof. split; reflexivity. Qed.

(** C2 (code_bug): no double-underscore attribute name is in the denylist:
    [().__class__.__subclasses__()] and [print(__builtins__)] are allowed,
    and the first runs to success when the child exits 0. *)
Theorem guard_dunder_escape_allowed :
  _validate_code "().__class__.__subclasses__()" = true /\
  _validate_code "print(__builtins__)" = true /\
  fst (run_execute_code (env_ok "" (Exited 0)) "().__class__.__subclasses__()"
         "python" 5)
  = inr (mkDict 1 "" "" 0 5 false true).
Proof. repeat split; reflexivity. Qed.

(** C3 counterexample: [import osprey] is denied, because [import os] is a
    substring of it. *)
Lemma guard_osprey_denied : _validate_code "import osprey" = false.
Proof. reflexivity. Qed.

(** C3 (amended): the import check is substring containment on the
    lower-cased snippet, not a word-boundary match: every snippet whose
    lower-cased text contains [import os] anywhere is denied, whatever
    follows it, for instance [import osprey] after other lines or
    [IMPORT OSPREY]. *)
Theorem guard_import_os_substring_denied code :
  str_in "import os" (str_lower code) = true -> _validate_code code = false.
Proof.
  intros H. unfold _validate_code.
  apply (validate_loop_false _ "import os"); [left; reflexivity|exact H].
Qed.

Lemma guard_import_os_substring_denied_witness :
  _validate_code ("x=1" ++ nl ++ "import osprey") = false /\
  _validate_code "IMPORT OSPREY" = false.
Proof.
  split.
  - apply (guard_import_os_substring_denied ("x=1" ++ nl ++ "import osprey")).
    reflexivity.
  - apply (guard_import_os_substring_denied "IMPORT OSPREY"). reflexivity.
Defined.

(** C4: every dictionary returned by [execute_code] has
    [success = (return_code == 0 and not timeout_occurred)]; in particular
    [success] is false whenever [timeout_occurred] is true. *)
Theorem execute_code_success_derived env code etype timeout s d :
  fst (execute_code env code etype timeout s) = inr d ->
  d_success d = (Z.eqb (d_return_code d) 0 && negb (d_timeout_occurred d)) /\
  (d_timeout_occurred d = true -> d_success d = false).
Proof.
  intros Hd.
  destruct (execute_code_returns_dict env code etype timeout s) as [r Hr].
  rewrite Hr in Hd. injection Hd as <-. cbn.
  split; [reflexivity|].
  intros ->. apply andb_false_r.
Qed.

Lemma execute_code_success_derived_witness :
  fst (execute_code env_timeout "import time" "python" 2 init_state)
  = inr (mkDict 1 "" (timeout_message 2) (-1) 5 true false) /\
  d_success (mkDict 1 "" (timeout_message 2) (-1) 5 true false) =
  (Z.eqb (-1) 0 && negb true) /\ (true = true -> false = false).
Proof.
  split; [reflexivity|].
  apply (execute_code_success_derived env_timeout "import time" "python" 2
           init_state (mkDict 1 "" (timeout_message 2) (-1) 5 true false)).
  reflexivity.
Defined.

(** C5: [execute_code] never raises: it always returns a dictionary, and
    when the run ([_execute_python_code]) raises an exception [e], the
    returned dictionary is the outer result with [return_code = 1] and
    [error_output = str(e)]. *)
Theorem execute_code_never_raises env code etype timeout s :
  (exists d, fst (execute_code env code etype timeout s) = inr d) /\
  (forall e, _validate_code code = true -> etype = "python" ->
     fst (_execute_python_code env code timeout
            (mkState (st_trace s) (st_files s) (S (st_next_id s)) (st_clock s)))
       = inl e ->
     fst (execute_code env code etype timeout s) =
     inr (to_dict (set_error (new_result_with_id (st_next_id s)) (exn_str e) 1))).
Proof.
  split.
  - destruct (execute_code_returns_dict env code etype timeout s) as [r Hr]. eauto.
  - intros e Hv -> Hx.
    unfold execute_code, try_except, bind at 1, new_result.
    rewrite Hv. cbn -[_execute_python_code].
    unfold bind at 1.
    destruct (_execute_python_code _ _ _ _) as [r s1]. cbn in Hx. subst r.
    reflexivity.
Qed.

Lemma execute_code_never_raises_witness :
  fst (_execute_python_code env_spawn_fail "print(1)" 5 (mkState [] [] 1 0))
  = inl (PyException "[Errno 2] No such file or directory") /\
  fst (execute_code env_spawn_fail "print(1)" "python" 5 init_state)
  = inr (to_dict (set_error (new_result_with_id (st_next_id init_state))
           (exn_str (PyException "[Errno 2] No such file or directory")) 1)).
Proof.
  split; [reflexivity|].
  apply (proj2 (execute_code_never_raises env_spawn_fail "print(1)" "python" 5
                  init_state) (PyException "[Errno 2] No such file or directory"));
    reflexivity.
Defined.

(** C6 counterexample: [-1] is not distinct from the exit statuses the
    code can observe.  A snippet the guard allows can have its child killed
    by signal 1 (SIGHUP); [Popen.returncode] is then [-1], the same value
    the timeout path stores, with [timeout_occurred] false. *)
Lemma timeout_sentinel_not_distinct :
  let hup := "import signal" ++ nl ++ "signal.raise_signal(signal.SIGHUP)" in
  _validate_code hup = true /\
  popen_returncode (Signaled 1) = -1 /\
  fst (run_execute_code (env_ok "" (Signaled 1)) hup "python" 5)
  = inr (mkDict 1 "" "" (-1) 5 false false) /\
  fst (run_execute_code env_timeout ("import time" ++ nl ++ "time.sleep(10)")
         "python" 2)
  = inr (mkDict 1 "" (timeout_message 2) (-1) 5 true false).
Proof. repeat split; reflexivity. Qed.

(** C6 (amended): when the child outlives the bound, the runner sends it
    SIGKILL ([process.kill()]), and the result has [timeout_occurred = true],
    [return_code = -1], [error_output = "Execution timed out after
    {timeout} seconds"] and [execution_time = end - start]; [-1] can also
    be the status of a child killed by signal 1, so the flag, not the
    status, identifies a timeout.  (The result is returned when the calls
    before [communicate] and the cleanup's [exists] and [unlink] work.) *)
Theorem timeout_kills_and_flags env code timeout :
  _validate_code code = true ->
  env_open env = None -> env_write env = None -> env_popen env = None ->
  env_communicate env = CommTimeout -> env_exists env = None ->
  env_unlink env = None ->
  let '(r, s') := run_execute_code env code "python" timeout in
  r = inr (mkDict 1 "" (timeout_message timeout) (-1)
                  (env_clock env 1 - env_clock env 0) true false)
  /\ In (EvSendSignal SIGKILL) (st_trace s').
Proof.
  intros Hv Ho Hw Hp Hc Hx Hu.
  unfold_runner.
  rewrite Hv, Ho, Hw, Hp, Hc, Hx, Hu. cbn -[_validate_code].
  destruct (env_child_unlinks env), (env_db env); cbn; split; auto;
    repeat first [left; reflexivity | right].
Qed.

Lemma timeout_kills_and_flags_witness :
  let code := "import time" ++ nl ++ "time.sleep(10)" in
  _validate_code code = true /\
  (let '(r, s') := run_execute_code env_timeout code "python" 2 in
   r = inr (mkDict 1 "" (timeout_message 2) (-1)
                   (env_clock env_timeout 1 - env_clock env_timeout 0) true false)
   /\ In (EvSendSignal SIGKILL) (st_trace s')).
Proof.
  split; [reflexivity|].
  apply (timeout_kills_and_flags env_timeout ("import time" ++ nl ++ "time.sleep(10)")
           2); reflexivity.
Defined.

(** C7: a snippet the guard denies gets [success = false],
    [return_code = 1], the fixed [error_output] "Code contains forbidden
    operations" and [execution_time = 0]; nothing happens besides the fresh
    id: no file, no process, no clock reading, no event at all. *)
Theorem denied_snippet_result env code etype timeout s :
  _validate_code code = false ->
  execute_code env code etype timeout s =
  (inr (mkDict (st_next_id s) "" FORBIDDEN_MESSAGE 1 0 false false),
   mkState (st_trace s) (st_files s) (S (st_next_id s)) (st_clock s)).
Proof.
  intros Hv. unfold execute_code, try_except, bind, new_result, ret.
  rewrite Hv. cbn. reflexivity.
Qed.

Lemma denied_snippet_result_witness :
  _validate_code "import os" = false /\
  execute_code env_timeout "import os" "python" 5 init_state =
  (inr (mkDict (st_next_id init_state) "" FORBIDDEN_MESSAGE 1 0 false false),
   mkState (st_trace init_state) (st_files init_state)
           (S (st_next_id init_state)) (st_clock init_state)).
Proof.
  split; [reflexivity|].
  apply (denied_snippet_result env_timeout "import os" "python" 5 init_state).
  reflexivity.
Defined.

(** C8 counterexample: a denied snippet and a spawn failure both return
    without writing the execution history. *)
Lemma denied_and_spawn_failure_not_recorded :
  run_execute_code (env_ok "" (Exited 0)) "import os" "python" 5
  = (inr (mkDict 0 "" FORBIDDEN_MESSAGE 1 0 false false), mkState [] [] 1 0) /\
  has_save (st_trace (snd (run_execute_code env_spawn_fail "print(1)" "python" 5)))
  = false.
Proof. split; reflexivity. Qed.

(** C8 (amended): the history is written exactly when the guard allows the
    snippet and no exception escapes the run: an unsupported type, a normal
    completion or a timeout is recorded; a denial or an exception during
    the run (open, write, spawn, communicate or cleanup failure) is not. *)
Theorem history_written_iff env code etype timeout :
  let '(r, s') := run_execute_code env code etype timeout in
  has_save (st_trace s') = true <->
  _validate_code code = true /\
  (etype <> "python" \/
   exists r0 s0, _execute_python_code env code timeout runner_start = (inr r0, s0)).
Proof.
  unfold_runner. unfold runner_start.
  destruct (_validate_code code) eqn:Hv; cbn -[_validate_code].
  - destruct (String.eqb etype "python") eqn:He.
    + apply String.eqb_eq in He. subst etype.
      destruct env as [o w p c clk ch ex u db]; env_steps; split; intros H;
        try discriminate H; try (split; [reflexivity|]); eauto;
        try (destruct H as [_ [H|[? [? H]]]]; [congruence|discriminate H]).
    + apply String.eqb_neq in He.
      destruct env as [o w p c clk ch ex u db]; env_steps; split; intros; auto.
  - split; [discriminate|intros [H _]; discriminate H].
Qed.

(** C9 counterexample: the child exits 0 printing [5], then deleting the
    scratch file fails: the primary result is replaced by [return_code = 1]
    and the deletion error, with the output lost. *)
Lemma cleanup_failure_replaces_result :
  fst (run_execute_code (env_unlink_fail "5") "print(2 + 3)" "python" 5)
  = inr (mkDict 0 "" "[Errno 13] Permission denied" 1 0 false false) /\
  fst (run_execute_code (env_ok "5" (Exited 0)) "print(2 + 3)" "python" 5)
  = inr (mkDict 1 "5" "" 0 5 false true).
Proof. split; reflexivity. Qed.

(** C9 (amended): the [finally] block deletes the scratch file only if
    it still exists.  When the existence check works and the child left its
    file in place, every exit path (completion, timeout, or an exception
    from write, Popen or communicate) attempts [unlink]; when the child
    removed its own file, [unlink] is not called; when the check and the
    deletion work, no scratch file is left.  A failure of the cleanup (the
    check or the deletion raising) is not swallowed: it replaces the
    primary result, [execute_code] returns [return_code = 1] with that
    error as [error_output] (output and duration lost), and nothing is
    written to the history. *)
Theorem cleanup_failure_propagates env code timeout :
  _validate_code code = true -> env_open env = None ->
  (env_exists env = None -> env_child_unlinks env = false ->
   In (EvUnlink 1) (st_trace (snd (run_execute_code env code "python" timeout)))) /\
  (env_write env = None -> env_popen env = None -> env_child_unlinks env = true ->
   ~ In (EvUnlink 1) (st_trace (snd (run_execute_code env code "python" timeout)))) /\
  (env_exists env = None -> env_unlink env = None ->
   st_files (snd (run_execute_code env code "python" timeout)) = []) /\
  (forall m, env_exists env = Some m \/
             (env_exists env = None /\ env_child_unlinks env = false /\
              env_unlink env = Some m) ->
   fst (run_execute_code env code "python" timeout)
     = inr (to_dict (mkResult 0 "" m 1 0 false)) /\
   has_save (st_trace (snd (run_execute_code env code "python" timeout))) = false).
Proof.
  intros Hv Ho. unfold_runner. rewrite Hv. cbn -[_validate_code].
  destruct env as [o w p c clk ch ex u db]; cbn [env_open env_write env_popen
    env_communicate env_clock env_child_unlinks env_exists env_unlink env_db] in *;
    subst o.
  split; [|split; [|split]].
  - intros -> ->. env_steps; repeat first [left; reflexivity | right].
  - intros -> -> ->. env_steps; trace_cases.
  - intros -> ->. env_steps; reflexivity.
  - intros m [->|[-> [-> ->]]]; env_steps; split; reflexivity.
Qed.

Lemma cleanup_failure_propagates_witness :
  fst (run_execute_code (env_unlink_fail "5") "print(2 + 3)" "python" 5)
    = inr (to_dict (mkResult 0 "" "[Errno 13] Permission denied" 1 0 false)) /\
  has_save (st_trace (snd (run_execute_code (env_unlink_fail "5") "print(2 + 3)"
                             "python" 5))) = false.
Proof.
  apply (proj2 (proj2 (proj2 (cleanup_failure_propagates (env_unlink_fail "5")
                                "print(2 + 3)" 5 ltac:(reflexivity) ltac:(reflexivity))))).
  right. split; [reflexivity|split; reflexivity].
Defined.

(** C10: every denylist entry is matched as a literal substring of the
    lower-cased snippet, whatever its context: a snippet whose lower-cased
    text contains any entry is denied, for instance [global_config = 1]
    (holding [glob]) and [print("dir(")] (holding [dir(] in a string). *)
Theorem guard_substring_anywhere_denies code op :
  In op dangerous_operations -> str_in op (str_lower code) = true ->
  _validate_code code = false.
Proof.
  intros Hin Hs. unfold _validate_code. exact (validate_loop_false _ _ _ Hin Hs).
Qed.

Lemma guard_substring_anywhere_denies_witness :
  _validate_code "global_config = 1" = false /\
  _validate_code ("print(" ++ dq ++ "dir(" ++ dq ++ ")") = false.
Proof.
  split.
  - apply (guard_substring_anywhere_denies "global_config = 1" "glob");
      [cbn; repeat first [left; reflexivity | right] | reflexivity].
  - apply (guard_substring_anywhere_denies ("print(" ++ dq ++ "dir(" ++ dq ++ ")")
             "dir("); [cbn; repeat first [left; reflexivity | right] | reflexivity].
Defined.

(** ** Further properties of the module *)

(** *** String lemmas *)

Lemma ascii_lower_not_P c : Ascii.eqb "P"%char (ascii_lower c) = false.
Proof. destruct c as [[] [] [] [] [] [] [] []]; reflexivity. Qed.

Lemma str_lower_app a b : str_lower (a ++ b) = str_lower a ++ str_lower b.
Proof. induction a; cbn; congruence. Qed.

Lemma str_append_assoc a b c : a ++ (b ++ c) = (a ++ b) ++ c.
Proof. induction a; cbn; congruence. Qed.

Lemma starts_with_spec p s : starts_with p s = true <-> exists b, s = p ++ b.
Proof.
  revert s; induction p as [|c p IH]; intros s; cbn.
  - split; eauto.
  - destruct s as [|d s].
    + split; [discriminate|intros [b H]; discriminate H].
    + rewrite andb_true_iff, IH, Ascii.eqb_eq. split.
      * intros [-> [b ->]]. eauto.
      * intros [b H]. injection H as -> ->. eauto.
Qed.

Lemma str_in_spec p s : str_in p s = true <-> exists a b, s = a ++ p ++ b.
Proof.
  induction s as [|c s IH]; cbn [str_in].
  - rewrite starts_with_spec. split.
    + intros [b H]. exists "", b. exact H.
    + intros [a [b H]]. destruct a; [eauto|discriminate H].
  - rewrite orb_true_iff, starts_with_spec, IH. split.
    + intros [[b H]|[a [b H]]].
      * exists "", b. exact H.
      * exists (String c a), b. rewrite H. reflexivity.
    + intros [a [b H]]. destruct a as [|d a].
      * left. eauto.
      * injection H as -> H. right. eauto.
Qed.

Lemma validate_loop_false_inv ops cl :
  validate_loop ops cl = false -> exists op, In op ops /\ str_in op cl = true.
Proof.
  induction ops as [|o ops IH]; cbn; [discriminate|].
  destruct (str_in o cl) eqn:E; intros H; [eauto|].
  destruct (IH H) as [op [? ?]]. eauto.
Qed.

(** *** Guard *)

(** X2: the denylist entry [cPickle] is dead: it holds an upper-case
    letter and is compared with the lower-cased snippet, so it never
    matches. *)
Theorem guard_cpickle_never_matches code :
  str_in "cPickle" (str_lower code) = false.
Proof.
  induction code as [|c s IH]; [reflexivity|].
  cbn [str_lower str_in]. rewrite IH, orb_false_r.
  change (starts_with "cPickle" (String (ascii_lower c) (str_lower s)))
    with (Ascii.eqb "c" (ascii_lower c) && starts_with "Pickle" (str_lower s)).
  assert (Hp : starts_with "Pickle" (str_lower s) = false).
  { destruct s as [|d s]; [reflexivity|].
    cbn [str_lower starts_with]. rewrite ascii_lower_not_P. reflexivity. }
  rewrite Hp, andb_false_r. reflexivity.
Qed.

(** X4: a denied snippet stays denied whatever text is put before or after
    it. *)
Theorem guard_denial_survives_context pre code post :
  _validate_code code = false -> _validate_code (pre ++ code ++ post) = false.
Proof.
  unfold _validate_code. intros H.
  destruct (validate_loop_false_inv _ _ H) as [op [Hin Hs]].
  apply (validate_loop_false _ op); [exact Hin|].
  apply str_in_spec in Hs as [a [b Hab]]. apply str_in_spec.
  rewrite !str_lower_app, Hab.
  exists (str_lower pre ++ a), (b ++ str_lower post).
  now rewrite !str_append_assoc.
Qed.

Lemma guard_denial_survives_context_witness :
  _validate_code "import os" = false /\
  _validate_code ("x = 1" ++ nl ++ "import os" ++ nl) = false.
Proof.
  split; [reflexivity|].
  apply (guard_denial_survives_context ("x = 1" ++ nl) "import os" nl).
  reflexivity.
Defined.

(** *** Runner *)

(** X5: an allowed snippet with an execution type other than "python" is
    never written or spawned: the result is [return_code = 1] with
    "Unsupported execution type: ..." as stderr, and it is recorded in the
    history (a failed write is printed). *)
Theorem unsupported_type_result env code etype timeout :
  _validate_code code = true -> etype <> "python" ->
  run_execute_code env code etype timeout =
  (inr (mkDict 0 "" ("Unsupported execution type: " ++ etype) 1 0 false false),
   mkState ([EvSaveHistory code etype "" ("Unsupported execution type: " ++ etype) 0] ++
            match env_db env with
            | Some m => [EvPrint ("Error saving execution history: " ++ m)]
            | None => []
            end) [] 1 0).
Proof.
  intros Hv He. apply String.eqb_neq in He.
  unfold_runner. rewrite Hv, He. cbn -[_validate_code].
  destruct (env_db env); reflexivity.
Qed.

Lemma unsupported_type_result_witness :
  _validate_code "print(1)" = true /\ "javascript" <> "python" /\
  run_execute_code (env_ok "" (Exited 0)) "print(1)" "javascript" 5 =
  (inr (mkDict 0 "" ("Unsupported execution type: " ++ "javascript") 1 0 false false),
   mkState ([EvSaveHistory "print(1)" "javascript" ""
               ("Unsupported execution type: " ++ "javascript") 0] ++
            match env_db (env_ok "" (Exited 0)) with
            | Some m => [EvPrint ("Error saving execution history: " ++ m)]
            | None => []
            end) [] 1 0).
Proof.
  split; [reflexivity|]. split; [apply String.eqb_neq; reflexivity|].
  apply unsupported_type_result; [reflexivity|apply String.eqb_neq; reflexivity].
Defined.

(** X6: when the child completes in time and the cleanup's calls work, the result
    carries its stdout and stderr verbatim, [Popen.returncode] as exit
    status, the measured [end - start] as duration, and [success] is
    [returncode == 0]. *)
Theorem normal_completion_result env code timeout out err w :
  _validate_code code = true ->
  env_open env = None -> env_write env = None -> env_popen env = None ->
  env_communicate env = CommDone out err w -> env_exists env = None ->
  env_unlink env = None ->
  fst (run_execute_code env code "python" timeout) =
  inr (mkDict 1 out err (popen_returncode w) (env_clock env 1 - env_clock env 0)
         false (Z.eqb (popen_returncode w) 0)).
Proof.
  intros Hv Ho Hw Hp Hc Hx Hu.
  unfold_runner. rewrite Hv, Ho, Hw, Hp, Hc, Hx, Hu. cbn -[_validate_code].
  destruct (env_child_unlinks env), (env_db env); cbn; unfold to_dict; cbn;
    now rewrite andb_true_r.
Qed.

Lemma normal_completion_result_witness :
  fst (run_execute_code (env_ok "5" (Exited 3)) "print(5)" "python" 5) =
  inr (mkDict 1 "5" "" (popen_returncode (Exited 3))
         (env_clock (env_ok "5" (Exited 3)) 1 - env_clock (env_ok "5" (Exited 3)) 0)
         false (Z.eqb (popen_returncode (Exited 3)) 0)).
Proof.
  apply normal_completion_result; reflexivity.
Defined.

(** X7: a child process is spawned only for a snippet the guard allows,
    with type "python", and only after the whole snippet was written to the
    scratch file it runs: the write comes before the spawn in the trace. *)
Theorem spawn_only_allowed_and_written env code etype timeout id :
  In (EvSpawn id) (st_trace (snd (run_execute_code env code etype timeout))) ->
  _validate_code code = true /\ etype = "python" /\
  exists before after,
    st_trace (snd (run_execute_code env code etype timeout))
      = (before ++ EvSpawn id :: after)%list /\
    In (EvWriteFile id code) before.
Proof.
  unfold_runner.
  destruct (_validate_code code) eqn:Hv; cbn -[_validate_code]; [|intros []].
  destruct (String.eqb etype "python") eqn:He.
  - apply String.eqb_eq in He. subst etype.
    destruct env as [o w p c clk ch ex u db]; env_steps; trace_cases;
      injection H as <-; (split; [first [exact Hv|reflexivity]|split; [reflexivity|]]);
      exists [EvCreateFile 1; EvWriteFile 1 code]; eexists;
      (split; [reflexivity|right; left; reflexivity]).
  - destruct env as [o w p c clk ch ex u db]; env_steps; trace_cases.
Qed.

Lemma spawn_only_allowed_and_written_witness :
  _validate_code "print(1)" = true /\ "python" = "python" /\
  exists before after,
    st_trace (snd (run_execute_code (env_ok "" (Exited 0)) "print(1)" "python" 5))
      = (before ++ EvSpawn 1 :: after)%list /\
    In (EvWriteFile 1 "print(1)") before.
Proof.
  apply (spawn_only_allowed_and_written (env_ok "" (Exited 0)) "print(1)" "python" 5 1).
  in_trace.
Defined.

(** X8: a signal is sent to the child only when [communicate] timed out,
    and it is SIGKILL. *)
Theorem kill_only_on_timeout env code etype timeout sig :
  In (EvSendSignal sig) (st_trace (snd (run_execute_code env code etype timeout))) ->
  env_communicate env = CommTimeout /\ sig = SIGKILL.
Proof.
  unfold_runner.
  destruct (_validate_code code) eqn:Hv; cbn -[_validate_code]; [|intros []].
  destruct (String.eqb etype "python") eqn:He;
    destruct env as [o w p c clk ch ex u db]; env_steps; trace_cases;
    injection H as <-; auto.
Qed.

Lemma kill_only_on_timeout_witness :
  env_communicate env_timeout = CommTimeout /\ 9 = SIGKILL.
Proof.
  apply (kill_only_on_timeout env_timeout "import time" "python" 2 9).
  in_trace.
Defined.

(** X9: a history record holds the submitted snippet and type and exactly
    the output, stderr and duration of the result returned to the caller. *)
Theorem history_record_matches_result env code etype timeout hc ht ho he htm :
  In (EvSaveHistory hc ht ho he htm)
     (st_trace (snd (run_execute_code env code etype timeout))) ->
  hc = code /\ ht = etype /\
  exists d, fst (run_execute_code env code etype timeout) = inr d /\
            d_output d = ho /\ d_error_output d = he /\ d_execution_time d = htm.
Proof.
  unfold_runner.
  destruct (_validate_code code) eqn:Hv; cbn -[_validate_code]; [|intros []].
  destruct (String.eqb etype "python") eqn:He;
    destruct env as [o w p c clk ch ex u db]; env_steps; trace_cases;
    injection H as <- <- <- <- <-; eauto 10.
Qed.

Lemma history_record_matches_result_witness :
  "print(2 + 3)" = "print(2 + 3)" /\ "python" = "python" /\
  exists d, fst (run_execute_code (env_ok "5" (Exited 0)) "print(2 + 3)" "python" 5)
            = inr d /\ d_output d = "5" /\ d_error_output d = "" /\
            d_execution_time d = 5.
Proof.
  apply (history_record_matches_result (env_ok "5" (Exited 0)) "print(2 + 3)" "python" 5
           "print(2 + 3)" "python" "5" "" 5).
  in_trace.
Defined.

(** X10: a failing history write never changes the result returned to the
    caller. *)
Theorem history_failure_invisible env code etype timeout :
  fst (run_execute_code env code etype timeout) =
  fst (run_execute_code (mkEnv (env_open env) (env_write env) (env_popen env)
         (env_communicate env) (env_clock env) (env_child_unlinks env)
         (env_exists env) (env_unlink env) None)
         code etype timeout).
Proof.
  unfold_runner.
  destruct (_validate_code code) eqn:Hv; cbn -[_validate_code]; [|reflexivity].
  destruct (String.eqb etype "python") eqn:He;
    destruct env as [o w p c clk ch ex u db]; env_steps; reflexivity.
Qed.

(** X11: when the existence check and the deletion work, no scratch file
    is left behind (the runner's or the child's deletion removed it), on every
    path (denial, unsupported type, open, write, spawn or communicate
    failure, timeout, completion). *)
Theorem no_scratch_file_left env code etype timeout :
  env_exists env = None -> env_unlink env = None ->
  st_files (snd (run_execute_code env code etype timeout)) = [].
Proof.
  intros Hx Hu. unfold_runner. rewrite Hx, Hu.
  destruct (_validate_code code) eqn:Hv; cbn -[_validate_code]; [|reflexivity].
  destruct (String.eqb etype "python") eqn:He;
    destruct env as [o w p c clk ch ex u db]; cbn in Hu, Hx; subst u ex; env_steps; reflexivity.
Qed.

Lemma no_scratch_file_left_witness :
  st_files (snd (run_execute_code env_spawn_fail "print(1)" "python" 5)) = [].
Proof. apply no_scratch_file_left; reflexivity. Defined.

(** *** Dicts *)

Section DictLemmas.
Context {V : Type}.

Lemma dict_lookup_set_eq (k : string) (v : V) d : dict_lookup k (dict_set k v d) = Some v.
Proof.
  induction d as [|[k' v'] d IH]; cbn; [now rewrite String.eqb_refl|].
  destruct (String.eqb k k') eqn:E; cbn; rewrite ?E; [reflexivity|exact IH].
Qed.

Lemma dict_lookup_set_neq (k k0 : string) (v : V) d :
  k0 <> k -> dict_lookup k0 (dict_set k v d) = dict_lookup k0 d.
Proof.
  intros Hne. induction d as [|[k' v'] d IH]; cbn.
  - apply String.eqb_neq in Hne. now rewrite Hne.
  - destruct (String.eqb k k') eqn:E; cbn.
    + apply String.eqb_eq in E. subst k'.
      apply String.eqb_neq in Hne. now rewrite Hne.
    + now rewrite IH.
Qed.

Lemma dict_lookup_del_neq (k k0 : string) d :
  k0 <> k -> dict_lookup k0 (@dict_del V k d) = dict_lookup k0 d.
Proof.
  intros Hne. induction d as [|[k' v'] d IH]; cbn; [reflexivity|].
  destruct (String.eqb k k') eqn:E; cbn.
  - apply String.eqb_eq in E. subst k'. apply String.eqb_neq in Hne. now rewrite Hne.
  - now rewrite IH.
Qed.

Lemma dict_del_set_fresh (k : string) (v : V) d :
  dict_lookup k d = None -> dict_del k (dict_set k v d) = d.
Proof.
  induction d as [|[k' v'] d IH]; cbn; [now rewrite String.eqb_refl|].
  destruct (String.eqb k k') eqn:E; [discriminate|].
  intros H. cbn. rewrite E, IH; auto.
Qed.




End DictLemmas.




(** *** Interactive sessions *)

Definition sample_session : Session :=
  mkSession [] [("x", mkValue (Some "1") "int"); ("_tmp", mkValue None "object");
                ("f", mkValue None "function")] 0 0.

(** X12: a session created under a fresh id is found with empty
    namespaces and its two timestamps, leaves the other sessions alone,
    and clearing it answers "Session deleted" and restores the sessions as
    they were. *)
Theorem create_then_clear_session sessions uuid created last_used :
  dict_mem uuid sessions = false ->
  dict_lookup (fst (create_session sessions uuid created last_used))
              (snd (create_session sessions uuid created last_used))
    = Some (mkSession [] [] created last_used) /\
  (forall k, k <> uuid ->
     dict_lookup k (snd (create_session sessions uuid created last_used))
       = dict_lookup k sessions) /\
  clear_session (snd (create_session sessions uuid created last_used))
                (fst (create_session sessions uuid created last_used))
    = (RMessage "Session deleted", sessions).
Proof.
  unfold dict_mem, create_session, clear_session. cbn [fst snd]. intros Hf.
  destruct (dict_lookup uuid sessions) eqn:E; [discriminate|].
  split; [apply dict_lookup_set_eq|]. split.
  - intros k Hk. apply dict_lookup_set_neq. exact Hk.
  - unfold dict_mem. rewrite dict_lookup_set_eq, dict_del_set_fresh by exact E.
    reflexivity.
Qed.

Lemma create_then_clear_session_witness :
  clear_session (snd (create_session [("a", sample_session)] "b" 7 8))
                (fst (create_session [("a", sample_session)] "b" 7 8))
  = (RMessage "Session deleted", [("a", sample_session)]).
Proof.
  apply (create_then_clear_session [("a", sample_session)] "b" 7 8). reflexivity.
Defined.

(** X13: for an id that is not a session, [execute_in_session],
    [get_session_variables] and [clear_session] answer
    {"error": "Session not found"} and change nothing. *)
Theorem unknown_session_not_found py_exec sessions sid code now id t0 t1 :
  dict_mem sid sessions = false ->
  execute_in_session py_exec sessions sid code now id t0 t1
    = (Returns (RError SESSION_NOT_FOUND), sessions) /\
  get_session_variables sessions sid = RError SESSION_NOT_FOUND /\
  clear_session sessions sid = (RError SESSION_NOT_FOUND, sessions).
Proof.
  unfold execute_in_session, get_session_variables, clear_session.
  unfold dict_mem. intros Hf. destruct (dict_lookup sid sessions); [discriminate|].
  auto.
Qed.

Lemma unknown_session_not_found_witness :
  execute_in_session (fun _ _ st => ExecOk (Some "") (Some "") st)
    [("a", sample_session)] "b" "print(1)" 5 1 2 4
  = (Returns (RError SESSION_NOT_FOUND), [("a", sample_session)]).
Proof.
  apply (unknown_session_not_found (fun _ _ st => ExecOk (Some "") (Some "") st)
           [("a", sample_session)] "b" "print(1)" 5 1 2 4).
  reflexivity.
Defined.







(** *** Queries *)

Lemma insert_by_perm {A} (le : A -> A -> bool) x l : Permutation (insert_by le x l) (x :: l).
Proof.
  induction l as [|y l IH]; cbn; [reflexivity|].
  destruct (le x y); [reflexivity|].
  rewrite IH. apply perm_swap.
Qed.

Lemma sort_by_perm {A} (le : A -> A -> bool) l : Permutation (sort_by le l) l.
Proof.
  induction l as [|x l IH]; cbn; [reflexivity|].
  rewrite insert_by_perm, IH. reflexivity.
Qed.

Section Sorting.
Context {A : Type} (le : A -> A -> bool).
Hypothesis le_total : forall a b, le a b = false -> le b a = true.

Lemma insert_by_sorted x l :
  LocallySorted (fun a b => le a b = true) l ->
  LocallySorted (fun a b => le a b = true) (insert_by le x l).
Proof.
  induction 1 as [|y|y z l Hs IH Hyz].
  - constructor.
  - cbn. destruct (le x y) eqn:E; constructor; auto; constructor.
  - change (insert_by le x (y :: z :: l))
      with (if le x y then x :: y :: z :: l else y :: insert_by le x (z :: l)).
    destruct (le x y) eqn:E; [constructor; [constructor|]; assumption|].
    revert IH. change (insert_by le x (z :: l))
      with (if le x z then x :: z :: l else z :: insert_by le x l).
    destruct (le x z) eqn:E2; intros IH; constructor; auto.
Qed.

Lemma sort_by_sorted l : LocallySorted (fun a b => le a b = true) (sort_by le l).
Proof.
  induction l as [|x l IH]; cbn; [constructor|]. apply insert_by_sorted, IH.
Qed.

End Sorting.

Lemma firstn_sorted {A} (R : A -> A -> Prop) n l :
  LocallySorted R l -> LocallySorted R (firstn n l).
Proof.
  intros H. revert n. induction H as [|a|a b l' Hs IH Hab]; intros n.
  - rewrite firstn_nil. apply LSorted_nil.
  - destruct n; cbn; [apply LSorted_nil|rewrite firstn_nil; apply LSorted_cons1].
  - destruct n as [|[|n]]; cbn; [apply LSorted_nil|apply LSorted_cons1|].
    specialize (IH (S n)). cbn in IH. apply LSorted_consn; assumption.
Qed.

Lemma str_le_total a b : str_le a b = false -> str_le b a = true.
Proof.
  unfold str_le. rewrite (String.compare_antisym b a).
  destruct (String.compare a b); cbn; congruence.
Qed.

(** X18: [get_execution_history] returns [] when the database raises;
    otherwise rows of the table only, newest first by [created_at], at
    most [limit] of them when [limit >= 0], and all rows when [limit] is
    negative (SQLite's LIMIT -1). *)
Theorem execution_history_query db rows limit :
  (db <> None -> get_execution_history db rows limit = []) /\
  (db = None ->
     LocallySorted (fun x y => str_le (h_created_at y) (h_created_at x) = true)
       (get_execution_history db rows limit) /\
     (forall r, In r (get_execution_history db rows limit) -> In r rows) /\
     (0 <= limit -> (length (get_execution_history db rows limit) <= Z.to_nat limit)%nat) /\
     (limit < 0 -> Permutation (get_execution_history db rows limit) rows)).
Proof.
  unfold get_execution_history, sql_limit. split.
  - destruct db; [reflexivity|contradiction].
  - intros ->.
    pose proof (sort_by_perm (fun x y => str_le (h_created_at y) (h_created_at x)) rows)
      as Hp.
    pose proof (sort_by_sorted (fun x y => str_le (h_created_at y) (h_created_at x))
                  (fun a b => str_le_total (h_created_at b) (h_created_at a)) rows) as Hs.
    destruct (Z.ltb_spec limit 0) as [Hl|Hl].
    + split; [exact Hs|]. split; [|split; [lia|intros _; exact Hp]].
      intros r Hr. exact (Permutation_in _ Hp Hr).
    + split; [apply firstn_sorted, Hs|]. split; [|split; [intros _; apply firstn_le_length|lia]].
      intros r Hr. apply (Permutation_in _ Hp).
      rewrite <- (firstn_skipn (Z.to_nat limit)). apply in_or_app. left. exact Hr.
Qed.

Definition sample_history : list HistoryRow :=
  [mkHistoryRow 1 "print(1)" "python" "1" "" 0 "2024-01-01 10:00:00";
   mkHistoryRow 2 "print(2)" "python" "2" "" 0 "2024-03-01 10:00:00";
   mkHistoryRow 3 "print(3)" "python" "3" "" 0 "2024-02-01 10:00:00"].

Lemma execution_history_query_witness :
  get_execution_history (Some "database is locked") sample_history 50 = [] /\
  (length (get_execution_history None sample_history 2) <= 2)%nat.
Proof.
  split.
  - apply (proj1 (execution_history_query (Some "database is locked") sample_history 50)).
    discriminate.
  - apply (proj2 (execution_history_query None sample_history 2) eq_refl); lia.
Defined.

(** X19: with a non-empty [category], [get_snippets] returns exactly the
    rows of that category, ordered by name; an empty category is falsy
    and lists every snippet, as no category does. *)
Theorem snippets_by_category db table c :
  (c <> "" -> db = None ->
     (forall r, In r (get_snippets db table (Some c)) <->
                In r (snippet_rows table) /\ sn_category r = c) /\
     LocallySorted (fun x y => str_le (sn_name x) (sn_name y) = true)
       (get_snippets db table (Some c))) /\
  get_snippets db table (Some "") = get_snippets db table None.
Proof.
  split; [|reflexivity].
  intros Hc ->. unfold get_snippets, truthy_category.
  apply String.eqb_neq in Hc. rewrite Hc. split.
  - intros r. split.
    + intros H. apply (Permutation_in _ (sort_by_perm _ _)) in H.
      apply filter_In in H as [H1 H2]. apply String.eqb_eq in H2. auto.
    + intros [H1 H2]. apply (Permutation_in _ (Permutation_sym (sort_by_perm _ _))).
      apply filter_In. split; [exact H1|]. now apply String.eqb_eq.
  - apply sort_by_sorted. intros a b. apply str_le_total.
Qed.

Definition sample_snippets : SnippetTable :=
  mkSnippetTable
    [mkSnippetRow 1 "zeta" "" "print(1)" "python" "general" "2024-01-01";
     mkSnippetRow 2 "alpha" "" "print(2)" "python" "math" "2024-01-02";
     mkSnippetRow 3 "beta" "" "print(3)" "python" "general" "2024-01-03"] 3.

Lemma snippets_by_category_witness :
  LocallySorted (fun x y => str_le (sn_name x) (sn_name y) = true)
    (get_snippets None sample_snippets (Some "general")).
Proof.
  apply (proj2 (proj1 (snippets_by_category None sample_snippets "general")
                  ltac:(discriminate) eq_refl)).
Defined.

(** X20: a successful [save_snippet] answers the id [seq + 1] that
    AUTOINCREMENT assigns, which no stored row carries, and the saved row
    is then listed by [get_snippets] under its category. *)
Theorem save_snippet_round_trip table name code description language category now :
  category <> "" ->
  (forall r, In r (snippet_rows table) -> sn_id r <= snippet_seq table) ->
  fst (save_snippet None table name code description language category now)
    = SavedSnippet (snippet_seq table + 1) /\
  (forall r, In r (snippet_rows table) -> sn_id r <> snippet_seq table + 1) /\
  In (mkSnippetRow (snippet_seq table + 1) name description code language category now)
     (get_snippets None (snd (save_snippet None table name code description language
                                category now)) (Some category)).
Proof.
  intros Hc Hmax. cbn [save_snippet fst snd]. split; [reflexivity|]. split.
  - intros r Hr. specialize (Hmax r Hr). lia.
  - unfold get_snippets, truthy_category. cbn [snippet_rows].
    apply String.eqb_neq in Hc. rewrite Hc.
    apply (Permutation_in _ (Permutation_sym (sort_by_perm _ _))).
    apply filter_In. split; [|cbn; apply String.eqb_refl].
    apply in_or_app. right. left. reflexivity.
Qed.

Lemma save_snippet_round_trip_witness :
  fst (save_snippet None sample_snippets "hello" "print('hi')" "" "python" "general"
         "2024-02-01") = SavedSnippet 4.
Proof.
  apply (save_snippet_round_trip sample_snippets "hello" "print('hi')" "" "python"
           "general" "2024-02-01").
  - discriminate.
  - intros r Hr. cbn in Hr. repeat destruct Hr as [<-|Hr]; cbn; try lia.
Defined.
